(** * HealthReport page: report loader, renderer and PDF export

    A shallow embedding of [src/pages/HealthReport.tsx].  The React
    component is modelled by explicit state passing: the three [useState]
    cells form a record, the mount effect and the two promise handlers are
    functions on that record which also return the list of effects they
    perform (navigation, fetch, console output, file save).  The body of
    [generatePDF] is written in a small state monad over the jsPDF document
    and the mutable cursor [yPos]. *)

From Stdlib Require Import ZArith List String Ascii Bool Lia Floats Sorted.
Import ListNotations.
Open Scope string_scope.

(** ** JavaScript values *)

(** A JavaScript [number] is an IEEE 754 binary64 value. *)
Definition number := float.

(** [a ?? d]: the nullish coalescing operator; [None] stands for both
    [null] and [undefined]. *)
Definition nullish {A : Type} (o : option A) (d : A) : A :=
  match o with
  | Some a => a
  | None => d
  end.

(** [o?.f]: optional chaining on a possibly undefined object. *)
Definition optChain {A B : Type} (o : option A) (f : A -> option B) : option B :=
  match o with
  | Some a => f a
  | None => None
  end.

Notation "o ?? d" := (nullish o d) (at level 45, left associativity).
Notation "o ?. f" := (optChain o f) (at level 40, left associativity).

(** [!s] for a string [s]: the empty string is the only falsy string. *)
Definition falsy (s : string) : bool := String.eqb s "".

(** The built-in conversions of numbers to text ([ToString] applied by a
    template literal, and [Number.prototype.toFixed]) belong to the
    JavaScript runtime; the development is parametric in them. *)
Class NumberFormat := {
  Number_toString : number -> string;
  Number_toFixed : number -> Z -> string
}.

(** ** Data model *)

Module Patient.
(** Modelled from the spec: the [Patient] interface is declared in
    [./patient.type], which is not among the sources.  The record has the
    four attributes that the page reads; each may be absent, which is why
    the page guards every access with [??]. *)
Record t := mk {
  Name : option string;
  Age : option number;
  Report_Date : option string;
  riskScore : option number
}.
End Patient.

Record HealthReportData := {
  patientName : string;
  age : number;
  assessmentDate : string;
  riskScore : number;
  keyFindings : list string;
  recommendations : list string;
  nextSteps : list string
}.

(** Session storage: the key/value pairs currently stored; [getItem]
    returns the first binding of the key, [None] (JavaScript [null]) when
    there is none. *)
Definition Storage := list (string * string).

Fixpoint getItem (ss : Storage) (key : string) : option string :=
  match ss with
  | [] => None
  | (k, v) :: rest => if String.eqb k key then Some v else getItem rest key
  end.

(** ** The jsPDF document *)

(** One call of [doc.text]: the string, its position, and the font size in
    force when it was emitted. *)
Record TextCmd := {
  txt : string;
  tx : Z;
  ty : Z;
  tsize : Z
}.

Record jsPDF := {
  fontSize : Z;
  texts : list TextCmd
}.

(** [new jsPDF()]: an empty document (jsPDF's initial font size is 16). *)
Definition new_jsPDF : jsPDF := {| fontSize := 16; texts := [] |}.

(** ** Effects and component state *)

Inductive FetchError :=
| NetworkError (msg : string)
| ParseError (msg : string).

(** How the promise chain [fetch(..).then(res => res.json())] settles. *)
Inductive FetchOutcome :=
| Rejected (err : FetchError)
| Resolved (data : list Patient.t).

Inductive Effect :=
| Navigate (path : string)
| Fetch (url : string)
| ConsoleError (err : FetchError)
| Save (filename : string) (doc : jsPDF).

Record State := {
  report : option HealthReportData;
  patientData : option Patient.t;
  loading : bool
}.

(** The initial values given to [useState]. *)
Definition initialState : State :=
  {| report := None; patientData := None; loading := true |}.

Definition setReport (r : option HealthReportData) (st : State) : State :=
  {| report := r; patientData := patientData st; loading := loading st |}.

Definition setPatientData (p : option Patient.t) (st : State) : State :=
  {| report := report st; patientData := p; loading := loading st |}.

Definition setLoading (b : bool) (st : State) : State :=
  {| report := report st; patientData := patientData st; loading := b |}.

(** ** Report loader *)

Definition defaultKeyFindings : list string :=
  [ "Elevated bilirubin levels (2.5 mg/dL)";
    "Normal albumin levels";
    "Platelet count within range";
    "Slightly elevated prothrombin time" ].

Definition defaultRecommendations : list string :=
  [ "Regular monitoring of liver function tests";
    "Maintain healthy diet and exercise routine";
    "Avoid alcohol consumption";
    "Schedule follow-up in 3 months" ].

Definition defaultNextSteps : list string :=
  [ "Book appointment with hepatologist";
    "Complete follow-up blood tests";
    "Join liver health support group";
    "Download patient education materials" ].

(** The object literal passed to [setReport]; [patient] is [data[0]] and is
    undefined when the array is empty. *)
Definition toReport (patient : option Patient.t) : HealthReportData :=
  {| patientName := patient ?. Patient.Name ?? "Unknown";
     age := patient ?. Patient.Age ?? 0%float;
     assessmentDate := patient ?. Patient.Report_Date ?? "";
     riskScore := patient ?. Patient.riskScore ?? 0%float;
     keyFindings := defaultKeyFindings;
     recommendations := defaultRecommendations;
     nextSteps := defaultNextSteps |}.

Definition fetchUrl (patientId : string) : string :=
  "http://localhost:3001/liverData/?Patient_ID=" ++ patientId.

(** The body of the mount effect: either the redirect or the fetch.  The
    guard [!patientId] holds for [null] and for the empty string. *)
Definition useEffect (ss : Storage) : list Effect :=
  match getItem ss "patientId" with
  | None => [Navigate "/login"]
  | Some patientId =>
      if falsy patientId then [Navigate "/login"]
      else [Fetch (fetchUrl patientId)]
  end.

(** The second [.then] handler. *)
Definition onResolved (data : list Patient.t) (st : State) : State * list Effect :=
  let patient := hd_error data in
  let st := setPatientData patient st in
  let st := setReport (Some (toReport patient)) st in
  (setLoading false st, []).

(** The [.catch] handler. *)
Definition onRejected (err : FetchError) (st : State) : State * list Effect :=
  (setLoading false st, [ConsoleError err]).

Definition settle (o : FetchOutcome) (st : State) : State * list Effect :=
  match o with
  | Resolved data => onResolved data st
  | Rejected err => onRejected err st
  end.

Definition isFetch (e : Effect) : bool :=
  match e with
  | Fetch _ => true
  | _ => false
  end.

(** One life of the page: mount with session storage [ss]; when the mount
    effect issued a fetch, that fetch settles as [o] and the matching
    handler runs.  Without a fetch no handler is registered and the state
    stays as initialised.  The result is the final state and the effects in
    the order they happened. *)
Definition HealthReport (ss : Storage) (o : FetchOutcome) : State * list Effect :=
  let mounted := useEffect ss in
  if existsb isFetch mounted then
    let (st, handled) := settle o initialState in
    (st, (mounted ++ handled)%list)
  else (initialState, mounted).

(** ** Report renderer *)

(** The class name chosen by the nested conditional on the risk score. *)
Definition riskClassName (r : number) : string :=
  if (70 <? r)%float then "text-red-600"
  else if (40 <? r)%float then "text-yellow-600"
  else "text-green-600".

(** The three tiers, by the colour that displays them. *)
Definition highTier : string := "text-red-600".
Definition mediumTier : string := "text-yellow-600".
Definition lowTier : string := "text-green-600".

Record SectionView := {
  secTitle : string;
  secItems : list string
}.

(** The [ReportSection] sub-component: a title over the items in order. *)
Definition ReportSection (title : string) (items : list string) : SectionView :=
  {| secTitle := title; secItems := items |}.

Inductive View :=
| Spinner
| NotFoundScreen (heading message : string)
| ReportScreen (name date : string) (scoreClass scoreText : string)
    (sections : list SectionView).

Definition render `{NumberFormat} (st : State) : View :=
  if loading st then Spinner
  else
    match report st with
    | None =>
        NotFoundScreen "Report Not Found"
          "The requested health report could not be found."
    | Some report =>
        let score := patientData st ?. Patient.riskScore ?? 0%float in
        ReportScreen
          (patientData st ?. Patient.Name ?? "N/A")
          (patientData st ?. Patient.Report_Date ?? "N/A")
          (riskClassName score)
          (Number_toFixed score 1 ++ "%")
          [ ReportSection "Key Findings" (keyFindings report);
            ReportSection "Recommendations" (recommendations report);
            ReportSection "Next Steps" (nextSteps report) ]
    end.

(** ** Document exporter *)

(** The mutable data of [generatePDF]: the document and the local [yPos].
    The cursor only ever holds small whole numbers, which binary64
    represents exactly, so it is kept as an integer. *)
Record Canvas := {
  doc : jsPDF;
  yPos : Z
}.

Definition PDF (A : Type) : Type := Canvas -> A * Canvas.

Definition ret {A : Type} (a : A) : PDF A := fun c => (a, c).

Definition bind {A B : Type} (m : PDF A) (k : A -> PDF B) : PDF B :=
  fun c => let (a, c') := m c in k a c'.

Notation "x <- m ;; k" := (bind m (fun x => k))
  (at level 61, m at next level, right associativity).
Notation "m ;; k" := (bind m (fun _ => k))
  (at level 61, right associativity).

(** [doc.setFontSize(n)] *)
Definition setFontSize (n : Z) : PDF unit :=
  fun c => (tt, {| doc := {| fontSize := n; texts := texts (doc c) |};
                   yPos := yPos c |}).

(** [doc.text(s, x, y)] *)
Definition text (s : string) (x y : Z) : PDF unit :=
  fun c =>
    let line := {| txt := s; tx := x; ty := y; tsize := fontSize (doc c) |} in
    (tt, {| doc := {| fontSize := fontSize (doc c);
                      texts := (texts (doc c) ++ [line])%list |};
            yPos := yPos c |}).

(** Reading [yPos], and [yPos += d]. *)
Definition getY : PDF Z := fun c => (yPos c, c).

Definition addY (d : Z) : PDF unit :=
  fun c => (tt, {| doc := doc c; yPos := yPos c + d |}).

(** [items.forEach(f)] *)
Fixpoint forEach {A : Type} (items : list A) (f : A -> PDF unit) : PDF unit :=
  match items with
  | [] => ret tt
  | item :: rest => f item ;; forEach rest f
  end.

(** The bullet character U+2022 (bytes E2 80 A2 in UTF-8), then a space. *)
Definition bullet : string :=
  String (ascii_of_nat 226) (String (ascii_of_nat 128)
    (String (ascii_of_nat 162) " ")).

(** The local closure [addSection]. *)
Definition addSection (title : string) (items : list string) : PDF unit :=
  setFontSize 14 ;;
  y <- getY ;;
  text title 20 y ;;
  addY 10 ;;
  setFontSize 12 ;;
  forEach items (fun item =>
    y <- getY ;;
    text (bullet ++ item) 25 y ;;
    addY 10) ;;
  addY 10.

(** The statements of [generatePDF] between [new jsPDF()] and the save. *)
Definition writeReport `{NumberFormat} (report : HealthReportData) : PDF unit :=
  setFontSize 20 ;;
  y <- getY ;;
  text "Liver Health Assessment Report" 20 y ;;
  addY 20 ;;
  setFontSize 12 ;;
  y <- getY ;;
  text ("Patient: " ++ patientName report) 20 y ;;
  y <- getY ;;
  text ("Age: " ++ Number_toString (age report)) 20 (y + 10) ;;
  y <- getY ;;
  text ("Assessment Date: " ++ assessmentDate report) 20 (y + 20) ;;
  y <- getY ;;
  text ("Risk Score: " ++ Number_toFixed (riskScore report) 1 ++ "%") 20 (y + 30) ;;
  addY 50 ;;
  addSection "Key Findings" (keyFindings report) ;;
  addSection "Recommendations" (recommendations report) ;;
  addSection "Next Steps" (nextSteps report).

(** [generatePDF], called with the current [report] state and the session
    storage as it is at the time of the click.  The result is the list of
    effects performed: nothing, or one [doc.save]. *)
Definition generatePDF `{NumberFormat}
    (report : option HealthReportData) (ss : Storage) : list Effect :=
  match report with
  | None => []
  | Some report =>
      let (_, c) := writeReport report {| doc := new_jsPDF; yPos := 20 |} in
      let patientId := getItem ss "patientId" ?? "report" in
      [Save ("liver-health-report-" ++ patientId ++ ".pdf") (doc c)]
  end.

(** ** The layout the exported document is expected to have *)

Definition lineHeight : Z := 10.
Definition sectionGap : Z := 10.

Definition titleLine : TextCmd :=
  {| txt := "Liver Health Assessment Report"; tx := 20; ty := 20; tsize := 20 |}.

(** The four labelled fields, at the fixed heights 40, 50, 60 and 70. *)
Definition fieldBlock `{NumberFormat} (r : HealthReportData) : list TextCmd :=
  [ {| txt := "Patient: " ++ patientName r; tx := 20; ty := 40; tsize := 12 |};
    {| txt := "Age: " ++ Number_toString (age r); tx := 20; ty := 50; tsize := 12 |};
    {| txt := "Assessment Date: " ++ assessmentDate r;
       tx := 20; ty := 60; tsize := 12 |};
    {| txt := "Risk Score: " ++ Number_toFixed (riskScore r) 1 ++ "%";
       tx := 20; ty := 70; tsize := 12 |} ].

(** Line number [k] of a section that starts at height [y0] sits [k] line
    heights below the start: the heading is line 0, the items follow. *)
Definition sectionLine (y0 : Z) (k : nat) (s : string) (x size : Z) : TextCmd :=
  {| txt := s; tx := x; ty := y0 + lineHeight * Z.of_nat k; tsize := size |}.

Fixpoint bulletLines (y0 : Z) (k : nat) (items : list string) : list TextCmd :=
  match items with
  | [] => []
  | item :: rest =>
      sectionLine y0 k (bullet ++ item) 25 12 :: bulletLines y0 (S k) rest
  end.

Definition sectionLayout (title : string) (items : list string) (y0 : Z)
  : list TextCmd :=
  sectionLine y0 0 title 20 14 :: bulletLines y0 1 items.

(** Where the cursor stands after a section: one line height for each of
    its lines, then the gap. *)
Definition sectionEnd (items : list string) (y0 : Z) : Z :=
  y0 + lineHeight * Z.of_nat (1 + List.length items) + sectionGap.

(** The lines of the whole document, top to bottom. *)
Definition reportLayout `{NumberFormat} (r : HealthReportData) : list TextCmd :=
  (titleLine :: fieldBlock r
   ++ sectionLayout "Key Findings" (keyFindings r) 90
   ++ sectionLayout "Recommendations" (recommendations r)
        (sectionEnd (keyFindings r) 90)
   ++ sectionLayout "Next Steps" (nextSteps r)
        (sectionEnd (recommendations r) (sectionEnd (keyFindings r) 90)))%list.

(** A session in which a usable identifier is stored, so that the mount
    effect issues the fetch. *)
Definition hasSession (ss : Storage) (id : string) : Prop :=
  getItem ss "patientId" = Some id /\ id <> "".

(** * Properties *)

(** ** Comparison of binary64 values *)

Section FloatOrder.

Lemma SFcompare_antisym (x y : spec_float) :
  SFcompare y x = option_map CompOpp (SFcompare x y).
Proof.
  destruct x as [sx|sx| |sx mx ex], y as [sy|sy| |sy my ey]; simpl;
    try reflexivity;
    try (destruct sx; reflexivity);
    try (destruct sy; reflexivity);
    try (destruct sx, sy; reflexivity).
  destruct sx, sy; simpl; try reflexivity;
    rewrite (Z.compare_antisym ex ey);
    destruct (ex ?= ey)%Z; simpl; try reflexivity;
    change (Pos.compare_cont Eq my mx) with (my ?= mx)%positive;
    change (Pos.compare_cont Eq mx my) with (mx ?= my)%positive;
    rewrite (Pos.compare_antisym mx my); reflexivity.
Qed.

(** [r <= b] excludes [b < r]. *)
Lemma leb_not_ltb (b r : float) :
  (r <=? b)%float = true -> (b <? r)%float = false.
Proof.
  rewrite leb_spec, ltb_spec. unfold SFleb, SFltb.
  rewrite (SFcompare_antisym (Prim2SF b) (Prim2SF r)).
  destruct (SFcompare (Prim2SF b) (Prim2SF r)) as [[ | | ]|]; simpl;
    congruence.
Qed.

(** Apart from NaN, any two binary64 values are comparable. *)
Lemma SFcompare_total (x y : spec_float) :
  x <> S754_nan -> y <> S754_nan -> exists c, SFcompare x y = Some c.
Proof.
  destruct x, y; simpl; intros Hx Hy; try congruence; eauto.
Qed.

(** When [r] and [b] are not NaN (each takes part in a comparison that
    holds), [b < r] failing means [r <= b]. *)
Lemma not_ltb_leb (a b r : float) :
  (a <? r)%float = true -> (b <=? b)%float = true ->
  (b <? r)%float = false -> (r <=? b)%float = true.
Proof.
  rewrite !leb_spec, !ltb_spec. unfold SFleb, SFltb.
  intros Har Hbb Hbr.
  assert (Hr : Prim2SF r <> S754_nan).
  { intros E. rewrite E in Har. destruct (Prim2SF a); discriminate. }
  assert (Hb : Prim2SF b <> S754_nan).
  { intros E. rewrite E in Hbb. discriminate. }
  destruct (SFcompare_total _ _ Hb Hr) as [c Hc].
  rewrite (SFcompare_antisym (Prim2SF b) (Prim2SF r)), Hc.
  rewrite Hc in Hbr. destruct c; simpl; congruence.
Qed.

End FloatOrder.

(** ** Risk tiers *)

Lemma riskClassName_cases (r : number) :
  riskClassName r = highTier /\ (70 <? r)%float = true
  \/ riskClassName r = mediumTier /\ (70 <? r)%float = false
     /\ (40 <? r)%float = true
  \/ riskClassName r = lowTier /\ (70 <? r)%float = false
     /\ (40 <? r)%float = false.
Proof.
  unfold riskClassName.
  destruct (70 <? r)%float; [now left | right].
  destruct (40 <? r)%float; [now left | now right].
Qed.

(** C2: a score above 70 is in the high tier, a score above 40 and at most
    70 is in the medium tier, and every other score (NaN included) is in
    the low tier; 71 is high, 40 is low, 0 is low. *)
Theorem riskClassName_three_tiers :
  (forall r : number,
      ((70 <? r)%float = true -> riskClassName r = highTier)
      /\ ((40 <? r)%float = true -> (r <=? 70)%float = true ->
          riskClassName r = mediumTier)
      /\ ((70 <? r)%float = false ->
          ((40 <? r)%float && (r <=? 70)%float = false) ->
          riskClassName r = lowTier))
  /\ riskClassName 71%float = highTier
  /\ riskClassName 40%float = lowTier
  /\ riskClassName 0%float = lowTier.
Proof.
  split; [intro r | repeat split; reflexivity].
  destruct (riskClassName_cases r) as [[E H70] | [[E [H70 H40]] | [E [H70 H40]]]];
    rewrite E; repeat split; intros; try reflexivity; try congruence.
  - (* the high case cannot arise under [r <= 70] *)
    pose proof (leb_not_ltb 70%float r ltac:(assumption)). congruence.
  - (* the medium case cannot arise when [40 < r <= 70] fails *)
    assert ((r <=? 70)%float = true)
      by (apply (not_ltb_leb 40%float); [assumption | reflexivity | assumption]).
    rewrite H40 in *. simpl in *. congruence.
Qed.

Lemma riskClassName_three_tiers_witness :
  riskClassName 55.5%float = mediumTier.
Proof.
  apply (proj1 (proj2 (proj1 riskClassName_three_tiers 55.5%float)));
    reflexivity.
Defined.

(** C10: a score of exactly 70 is in the medium tier and not in the high
    tier; the high tier is reached only by scores strictly above 70. *)
Theorem riskClassName_70_is_medium :
  riskClassName 70%float = mediumTier
  /\ riskClassName 70%float <> highTier
  /\ (forall r : number, riskClassName r = highTier -> (70 <? r)%float = true).
Proof.
  split; [reflexivity | split; [discriminate | intros r E]].
  destruct (riskClassName_cases r) as [[_ H] | [[E' _] | [E' _]]];
    [exact H | rewrite E' in E; discriminate ..].
Qed.

Lemma riskClassName_70_is_medium_witness :
  riskClassName 85%float = highTier /\ (70 <? 85)%float = true.
Proof.
  split; [reflexivity|].
  apply (proj2 (proj2 riskClassName_70_is_medium) 85%float). reflexivity.
Defined.

(** ** Report loader *)

Section Loader.

Lemma useEffect_with_session (ss : Storage) (id : string) :
  hasSession ss id -> useEffect ss = [Fetch (fetchUrl id)].
Proof.
  intros [Hget Hid]. unfold useEffect, falsy. rewrite Hget.
  apply String.eqb_neq in Hid. now rewrite Hid.
Qed.

(** The guard of the mount effect has two outcomes only. *)
Lemma useEffect_cases (ss : Storage) :
  (exists id, hasSession ss id) \/
  ((forall id, ~ hasSession ss id) /\ useEffect ss = [Navigate "/login"]).
Proof.
  unfold hasSession, useEffect, falsy.
  destruct (getItem ss "patientId") as [id|].
  - destruct (String.eqb_spec id "") as [E|E].
    + right. split; [|reflexivity].
      intros id' [Hid' Hne]. injection Hid' as <-. contradiction.
    + left. now exists id.
  - right. split; [|reflexivity]. intros id [Hid _]. discriminate.
Qed.

Lemma HealthReport_with_session (ss : Storage) (id : string) (o : FetchOutcome) :
  hasSession ss id ->
  HealthReport ss o =
    (fst (settle o initialState),
     Fetch (fetchUrl id) :: snd (settle o initialState)).
Proof.
  intros Hs. unfold HealthReport. rewrite (useEffect_with_session ss id Hs).
  simpl. now destruct (settle o initialState).
Qed.

Lemma HealthReport_without_session (ss : Storage) (o : FetchOutcome) :
  (forall id, ~ hasSession ss id) ->
  HealthReport ss o = (initialState, [Navigate "/login"]).
Proof.
  intros Hno. unfold HealthReport.
  destruct (useEffect_cases ss) as [[id Hs] | [_ E]].
  - now destruct (Hno id).
  - now rewrite E.
Qed.

(** Fields that the record does carry are copied into the view-model. *)
Lemma toReport_present_fields (p : Patient.t) :
  (forall s, Patient.Name p = Some s -> patientName (toReport (Some p)) = s)
  /\ (forall n, Patient.Age p = Some n -> age (toReport (Some p)) = n)
  /\ (forall s, Patient.Report_Date p = Some s ->
                assessmentDate (toReport (Some p)) = s)
  /\ (forall n, Patient.riskScore p = Some n ->
                riskScore (toReport (Some p)) = n).
Proof.
  repeat split; intros x E; simpl; now rewrite E.
Qed.

End Loader.

(** C4: with no patient identifier in session storage at mount, the page
    navigates to the login route, and no fetch is among its effects,
    however a request would have settled. *)
Theorem no_identifier_redirects_without_fetch (ss : Storage) (o : FetchOutcome) :
  getItem ss "patientId" = None ->
  HealthReport ss o = (initialState, [Navigate "/login"])
  /\ (forall url, ~ In (Fetch url) (snd (HealthReport ss o))).
Proof.
  intros Hnone.
  assert (E : HealthReport ss o = (initialState, [Navigate "/login"])).
  { apply HealthReport_without_session. intros id [Hid _]. congruence. }
  split; [exact E|]. rewrite E. simpl. intros url [H|[]]. discriminate.
Qed.

Lemma no_identifier_redirects_without_fetch_witness :
  HealthReport [("theme", "dark")] (Resolved [])
    = (initialState, [Navigate "/login"])
  /\ (forall url,
         ~ In (Fetch url) (snd (HealthReport [("theme", "dark")] (Resolved [])))).
Proof.
  apply (no_identifier_redirects_without_fetch [("theme", "dark")] (Resolved [])).
  reflexivity.
Defined.

(** C3: the handler maps any fetched record to a view-model, and a missing
    name becomes "Unknown", a missing age 0, a missing report date the empty
    string and a missing risk score 0. *)
Theorem missing_fields_take_defaults
    (p : Patient.t) (rest : list Patient.t) (st : State) :
  exists r : HealthReportData,
    report (fst (onResolved (p :: rest) st)) = Some r
    /\ (Patient.Name p = None -> patientName r = "Unknown")
    /\ (Patient.Age p = None -> age r = 0%float)
    /\ (Patient.Report_Date p = None -> assessmentDate r = "")
    /\ (Patient.riskScore p = None -> riskScore r = 0%float).
Proof.
  exists (toReport (Some p)). split; [reflexivity|].
  repeat split; intros E; simpl; now rewrite E.
Qed.

Lemma missing_fields_take_defaults_witness :
  exists r : HealthReportData,
    report (fst (onResolved [Patient.mk None None None None] initialState))
      = Some r
    /\ patientName r = "Unknown" /\ age r = 0%float
    /\ assessmentDate r = "" /\ riskScore r = 0%float.
Proof.
  destruct (missing_fields_take_defaults
              (Patient.mk None None None None) [] initialState)
    as [r [Hr [Hname [Hage [Hdate Hrisk]]]]].
  exists r. split; [exact Hr|].
  repeat split; [apply Hname | apply Hage | apply Hdate | apply Hrisk];
    reflexivity.
Defined.

(** C9: whatever the fetch returned, the three lists of the view-model are
    the same fixed lists of four strings. *)
Theorem report_lists_are_fixed (data : list Patient.t) (st : State) :
  exists r : HealthReportData,
    report (fst (onResolved data st)) = Some r
    /\ keyFindings r =
         [ "Elevated bilirubin levels (2.5 mg/dL)";
           "Normal albumin levels";
           "Platelet count within range";
           "Slightly elevated prothrombin time" ]
    /\ recommendations r =
         [ "Regular monitoring of liver function tests";
           "Maintain healthy diet and exercise routine";
           "Avoid alcohol consumption";
           "Schedule follow-up in 3 months" ]
    /\ nextSteps r =
         [ "Book appointment with hepatologist";
           "Complete follow-up blood tests";
           "Join liver health support group";
           "Download patient education materials" ].
Proof.
  exists (toReport (hd_error data)). repeat split.
Qed.

(** C8: when the fetch fails, by a network error or a parse error, loading
    ends, the view-model stays null, the error is written to the console,
    no second request is made, and the screen is the fixed "Report Not
    Found" screen, which carries nothing of the error. *)
Theorem failed_fetch_shows_not_found `{NumberFormat}
    (ss : Storage) (id : string) (err : FetchError) :
  hasSession ss id ->
  HealthReport ss (Rejected err) =
    ({| report := None; patientData := None; loading := false |},
     [Fetch (fetchUrl id); ConsoleError err])
  /\ render (fst (HealthReport ss (Rejected err))) =
       NotFoundScreen "Report Not Found"
         "The requested health report could not be found.".
Proof.
  intros Hs. rewrite (HealthReport_with_session ss id _ Hs). now split.
Qed.

Lemma failed_fetch_shows_not_found_witness :
  hasSession [("patientId", "P001")] "P001"
  /\ forall F : NumberFormat,
      HealthReport [("patientId", "P001")]
          (Rejected (NetworkError "Failed to fetch")) =
        ({| report := None; patientData := None; loading := false |},
         [Fetch (fetchUrl "P001");
          ConsoleError (NetworkError "Failed to fetch")])
      /\ render (fst (HealthReport [("patientId", "P001")]
                        (Rejected (NetworkError "Failed to fetch")))) =
           NotFoundScreen "Report Not Found"
             "The requested health report could not be found.".
Proof.
  assert (Hs : hasSession [("patientId", "P001")] "P001")
    by (split; [reflexivity | discriminate]).
  split; [exact Hs | intro F].
  exact (failed_fetch_shows_not_found [("patientId", "P001")] "P001"
           (NetworkError "Failed to fetch") Hs).
Defined.

(** C1, as the page behaves: the view-model exists exactly when a fetch was
    issued and resolved with an array, with or without a record in it.  A
    fetch that resolves with the empty array ends loading and leads to the
    report screen built from the default values, and the "Report Not Found"
    screen is shown exactly when the fetch failed. *)
Theorem report_exists_iff_fetch_resolved `{NumberFormat}
    (ss : Storage) (o : FetchOutcome) :
  let st := fst (HealthReport ss o) in
  (report st <> None <->
     (exists id, hasSession ss id) /\ (exists data, o = Resolved data))
  /\ ((exists id, hasSession ss id) -> o = Resolved [] ->
      loading st = false
      /\ report st = Some (toReport None)
      /\ render st =
           ReportScreen "N/A" "N/A" lowTier (Number_toFixed 0%float 1 ++ "%")
             [ ReportSection "Key Findings" defaultKeyFindings;
               ReportSection "Recommendations" defaultRecommendations;
               ReportSection "Next Steps" defaultNextSteps ])
  /\ (render st =
        NotFoundScreen "Report Not Found"
          "The requested health report could not be found."
      <-> (exists id, hasSession ss id) /\ (exists err, o = Rejected err)).
Proof.
  intros st. subst st.
  destruct (useEffect_cases ss) as [[id Hs] | [Hno _]].
  - rewrite (HealthReport_with_session ss id o Hs).
    destruct o as [err | data]; simpl.
    + split; [|split].
      * split; [congruence | intros [_ [data E]]; discriminate].
      * intros _ E. discriminate.
      * split; [intros _; split; eauto | reflexivity].
    + split; [|split].
      * split; [intros _; split; eauto | discriminate].
      * intros _ E. injection E as ->. repeat split.
      * split; [discriminate | intros [_ [err E]]; discriminate].
  - rewrite (HealthReport_without_session ss o Hno). simpl.
    split; [|split].
    + split; [congruence | intros [[id Hs] _]; now destruct (Hno id)].
    + intros [id Hs]. now destruct (Hno id).
    + split; [discriminate | intros [[id Hs] _]; now destruct (Hno id)].
Qed.

Lemma report_exists_iff_fetch_resolved_witness :
  hasSession [("patientId", "P001")] "P001"
  /\ forall F : NumberFormat,
      report (fst (HealthReport [("patientId", "P001")] (Resolved [])))
        = Some (toReport None)
      /\ render (fst (HealthReport [("patientId", "P001")] (Resolved []))) =
           ReportScreen "N/A" "N/A" lowTier (Number_toFixed 0%float 1 ++ "%")
             [ ReportSection "Key Findings" defaultKeyFindings;
               ReportSection "Recommendations" defaultRecommendations;
               ReportSection "Next Steps" defaultNextSteps ].
Proof.
  assert (Hs : hasSession [("patientId", "P001")] "P001")
    by (split; [reflexivity | discriminate]).
  split; [exact Hs | intro F].
  apply (proj1 (proj2
           (report_exists_iff_fetch_resolved [("patientId", "P001")] (Resolved []))));
    [now exists "P001" | reflexivity].
Defined.

(** C1, as stated, fails: after a fetch that resolves with the empty array
    the page has left the loading state, but the view-model is not null and
    the screen is not the "Report Not Found" screen. *)
Lemma empty_array_is_not_reported_missing :
  let st := fst (HealthReport [("patientId", "P001")] (Resolved [])) in
  loading st = false
  /\ report st <> None
  /\ (forall F : NumberFormat,
        render st <>
          NotFoundScreen "Report Not Found"
            "The requested health report could not be found.").
Proof.
  simpl. repeat split; [discriminate | intros F; discriminate].
Qed.

(** ** Document exporter *)

Section Exporter.

Context `{NumberFormat}.
Local Open Scope Z_scope.

(** The loop over the items: each pass emits the next line of the section
    and moves the cursor one line height down. *)
Lemma forEach_bulletLines (y0 : Z) (items : list string) :
  forall (k : nat) (c : Canvas),
    fontSize (doc c) = 12 ->
    yPos c = y0 + lineHeight * Z.of_nat k ->
    forEach items (fun item =>
      y <- getY ;; text (bullet ++ item) 25 y ;; addY 10) c =
    (tt, {| doc := {| fontSize := 12;
                      texts := (texts (doc c) ++ bulletLines y0 k items)%list |};
            yPos := y0 + lineHeight * Z.of_nat (k + List.length items)%nat |}).
Proof.
  induction items as [|item rest IH]; intros k c Hsize Hy.
  - cbn [forEach bulletLines List.length]. unfold ret.
    rewrite app_nil_r, Nat.add_0_r, <- Hy, <- Hsize.
    now destruct c as [[fs ts] y].
  - cbn [forEach bulletLines List.length]. unfold bind at 1.
    unfold bind, getY, text, addY. cbn [doc yPos fontSize texts].
    rewrite (IH (S k)); cbn [doc yPos fontSize texts].
    + rewrite <- app_assoc. cbn [app]. unfold sectionLine.
      rewrite Hsize, Hy, Nat.add_succ_r. reflexivity.
    + exact Hsize.
    + rewrite Hy. unfold lineHeight. lia.
Qed.

(** A section appends its layout at the cursor and leaves the cursor one
    line height under its last line, plus the gap. *)
Lemma addSection_layout (title : string) (items : list string) (c : Canvas) :
  addSection title items c =
    (tt, {| doc := {| fontSize := 12;
                      texts := (texts (doc c)
                                ++ sectionLayout title items (yPos c))%list |};
            yPos := sectionEnd items (yPos c) |}).
Proof.
  unfold addSection.
  unfold bind at 1 2 3 4 5. unfold setFontSize at 1. unfold getY at 1.
  unfold text at 1. unfold addY at 1. unfold setFontSize at 1.
  cbn [doc yPos fontSize texts].
  unfold bind at 1.
  rewrite (forEach_bulletLines (yPos c) items 1); cbn [doc yPos fontSize texts].
  - unfold addY, sectionEnd, sectionLayout, sectionLine, lineHeight, sectionGap.
    cbn [doc yPos fontSize texts]. rewrite <- app_assoc. cbn [app].
    repeat f_equal; lia.
  - reflexivity.
  - unfold lineHeight. lia.
Qed.

Lemma writeReport_layout (r : HealthReportData) :
  writeReport r {| doc := new_jsPDF; yPos := 20 |} =
    (tt, {| doc :=
              {| fontSize := 12;
                 texts :=
                   (titleLine :: fieldBlock r
                    ++ sectionLayout "Key Findings" (keyFindings r) 90
                    ++ sectionLayout "Recommendations" (recommendations r)
                         (sectionEnd (keyFindings r) 90)
                    ++ sectionLayout "Next Steps" (nextSteps r)
                         (sectionEnd (recommendations r)
                            (sectionEnd (keyFindings r) 90)))%list |};
            yPos := sectionEnd (nextSteps r)
                      (sectionEnd (recommendations r)
                         (sectionEnd (keyFindings r) 90)) |}).
Proof.
  unfold writeReport, bind, setFontSize, getY, text, addY, new_jsPDF.
  cbn [doc yPos fontSize texts app Z.add Pos.add Pos.succ].
  rewrite !addSection_layout. cbn [doc yPos fontSize texts app].
  unfold titleLine, fieldBlock.
  rewrite <- !app_assoc. reflexivity.
Qed.

Lemma bulletLines_nth (y0 : Z) (items : list string) :
  forall (k i : nat) (item : string),
    nth_error items i = Some item ->
    nth_error (bulletLines y0 k items) i =
      Some (sectionLine y0 (k + i) (bullet ++ item) 25 12).
Proof.
  induction items as [|x rest IH]; intros k [|i] item Hnth;
    try discriminate; cbn [bulletLines nth_error] in *.
  - injection Hnth as ->. now rewrite Nat.add_0_r.
  - rewrite (IH (S k) i item Hnth). now rewrite Nat.add_succ_r.
Qed.

Lemma bulletLines_length (y0 : Z) (items : list string) :
  forall k, List.length (bulletLines y0 k items) = List.length items.
Proof.
  induction items as [|x rest IH]; intros k; cbn [bulletLines List.length];
    [reflexivity | now rewrite IH].
Qed.

(** The layout of a section in numbers: the heading at the start height,
    item [i] (counted from 0) [i + 1] line heights of 10 further down, and
    the cursor ends 10 under the last line plus a gap of 10. *)
Lemma sectionLayout_geometry (title : string) (items : list string) (y0 : Z) :
  nth_error (sectionLayout title items y0) 0 =
    Some {| txt := title; tx := 20; ty := y0; tsize := 14 |}
  /\ (forall i item,
        nth_error items i = Some item ->
        nth_error (sectionLayout title items y0) (S i) =
          Some {| txt := bullet ++ item; tx := 25;
                  ty := y0 + 10 * (Z.of_nat i + 1); tsize := 12 |})
  /\ List.length (sectionLayout title items y0) = S (List.length items)
  /\ sectionEnd items y0 = y0 + 10 * (Z.of_nat (List.length items) + 1) + 10.
Proof.
  unfold sectionLayout, sectionEnd, sectionGap. repeat split.
  - cbn [nth_error]. unfold sectionLine, lineHeight. do 2 f_equal. lia.
  - intros i item Hnth. cbn [nth_error].
    rewrite (bulletLines_nth y0 items 1 i item Hnth).
    unfold sectionLine, lineHeight. do 2 f_equal. lia.
  - cbn [List.length]. now rewrite bulletLines_length.
  - unfold lineHeight. lia.
Qed.

Lemma generatePDF_loaded (r : HealthReportData) (ss : Storage) :
  generatePDF (Some r) ss =
    [Save ("liver-health-report-" ++ (getItem ss "patientId" ?? "report")
           ++ ".pdf")
       (doc (snd (writeReport r {| doc := new_jsPDF; yPos := 20 |})))].
Proof.
  unfold generatePDF.
  now destruct (writeReport r {| doc := new_jsPDF; yPos := 20 |}).
Qed.

End Exporter.

(** C5: with no view-model loaded, the export does nothing: it performs no
    effect at all, so no document is saved. *)
Theorem export_without_report_is_noop `{NumberFormat} (ss : Storage) :
  generatePDF None ss = []
  /\ (forall filename d, ~ In (Save filename d) (generatePDF None ss)).
Proof.
  split; [reflexivity | intros filename d []].
Qed.

(** C6: for a loaded view-model the export saves one document whose text
    lines are, in order, the title, the four labelled fields at heights 40,
    50, 60 and 70, and the sections Key Findings, Recommendations and Next
    Steps.  A section is its heading followed by one bulleted line for each
    item; inside a section every line is 10 units below the line before it,
    and the next section starts 10 units further down than a line would. *)
Theorem exported_document_layout `{NumberFormat}
    (r : HealthReportData) (ss : Storage) :
  (exists (filename : string) (d : jsPDF),
      generatePDF (Some r) ss = [Save filename d]
      /\ texts d =
           (titleLine :: fieldBlock r
            ++ sectionLayout "Key Findings" (keyFindings r) 90
            ++ sectionLayout "Recommendations" (recommendations r)
                 (sectionEnd (keyFindings r) 90)
            ++ sectionLayout "Next Steps" (nextSteps r)
                 (sectionEnd (recommendations r)
                    (sectionEnd (keyFindings r) 90)))%list)
  /\ (forall (title : string) (items : list string) (y0 : Z),
        nth_error (sectionLayout title items y0) 0 =
          Some {| txt := title; tx := 20; ty := y0; tsize := 14 |}
        /\ (forall i item,
              nth_error items i = Some item ->
              nth_error (sectionLayout title items y0) (S i) =
                Some {| txt := bullet ++ item; tx := 25;
                        ty := y0 + 10 * (Z.of_nat i + 1); tsize := 12 |})
        /\ List.length (sectionLayout title items y0) = S (List.length items)
        /\ sectionEnd items y0 =
             (y0 + 10 * (Z.of_nat (List.length items) + 1) + 10)%Z).
Proof.
  split; [|exact sectionLayout_geometry].
  rewrite generatePDF_loaded, writeReport_layout. cbn [snd doc texts].
  eexists _, _. split; reflexivity.
Qed.

Lemma exported_document_layout_witness :
  nth_error defaultNextSteps 3 = Some "Download patient education materials"
  /\ forall F : NumberFormat,
      nth_error (sectionLayout "Next Steps" defaultNextSteps 210) 4 =
        Some {| txt := bullet ++ "Download patient education materials";
                tx := 25; ty := 250; tsize := 12 |}.
Proof.
  split; [reflexivity | intro F].
  exact (proj1 (proj2 (proj2 (exported_document_layout (toReport None) [])
                         "Next Steps" defaultNextSteps 210%Z))
           3%nat "Download patient education materials" eq_refl).
Defined.

(** The export of the default view-model, with its three lists of four
    items: the headings come in the documented order and the heights of the
    lines run from 20 to 250. *)
Example default_report_export :
  forall F : NumberFormat,
    exists d,
      generatePDF (Some (toReport None)) [("patientId", "P001")] =
        [Save "liver-health-report-P001.pdf" d]
      /\ map ty (texts d) =
           [20; 40; 50; 60; 70;
            90; 100; 110; 120; 130;
            150; 160; 170; 180; 190;
            210; 220; 230; 240; 250]%Z
      /\ map txt (filter (fun l => Z.eqb (tsize l) 14) (texts d)) =
           ["Key Findings"; "Recommendations"; "Next Steps"].
Proof.
  intro F. rewrite generatePDF_loaded, writeReport_layout.
  eexists. split; [reflexivity | split; vm_compute; reflexivity].
Qed.

(** C7: for a loaded view-model the file is saved as
    liver-health-report-<identifier>.pdf when session storage holds an
    identifier at the time of the export, and as
    liver-health-report-report.pdf when it holds none. *)
Theorem exported_file_name `{NumberFormat}
    (r : HealthReportData) (ss : Storage) :
  (forall id : string,
      getItem ss "patientId" = Some id ->
      exists d, generatePDF (Some r) ss =
                  [Save ("liver-health-report-" ++ id ++ ".pdf") d])
  /\ (getItem ss "patientId" = None ->
      exists d, generatePDF (Some r) ss =
                  [Save "liver-health-report-report.pdf" d]).
Proof.
  split; [intros id E | intros E]; rewrite generatePDF_loaded, E;
    eexists; reflexivity.
Qed.

Lemma exported_file_name_witness :
  getItem [("patientId", "P001")] "patientId" = Some "P001"
  /\ getItem [] "patientId" = None
  /\ forall (F : NumberFormat) (r : HealthReportData),
      (exists d, generatePDF (Some r) [("patientId", "P001")] =
                   [Save "liver-health-report-P001.pdf" d])
      /\ (exists d, generatePDF (Some r) [] =
                      [Save "liver-health-report-report.pdf" d]).
Proof.
  split; [reflexivity | split; [reflexivity | intros F r; split]].
  - exact (proj1 (exported_file_name r [("patientId", "P001")])
             "P001" eq_refl).
  - exact (proj2 (exported_file_name r []) eq_refl).
Defined.


(** * Further properties of the page *)

(** ** Order of risk scores *)

Section FloatMonotone.




End FloatMonotone.



(** ** Runs of the loader *)

Section LoaderRuns.

(** The final state of a run, by the three ways a run can go. *)
Lemma HealthReport_state_cases (ss : Storage) (o : FetchOutcome) :
  ((forall id, ~ hasSession ss id)
   /\ HealthReport ss o = (initialState, [Navigate "/login"]))
  \/ (exists id err,
        hasSession ss id /\ o = Rejected err
        /\ HealthReport ss o =
             ({| report := None; patientData := None; loading := false |},
              [Fetch (fetchUrl id); ConsoleError err]))
  \/ (exists id data,
        hasSession ss id /\ o = Resolved data
        /\ HealthReport ss o =
             ({| report := Some (toReport (hd_error data));
                 patientData := hd_error data;
                 loading := false |},
              [Fetch (fetchUrl id)])).
Proof.
  destruct (useEffect_cases ss) as [[id Hs] | [Hno _]].
  - right. rewrite (HealthReport_with_session ss id o Hs).
    destruct o as [err | data]; [left | right]; eauto 6.
  - left. split; [exact Hno | now apply HealthReport_without_session].
Qed.

End LoaderRuns.

(** X2: an identifier stored as the empty string counts as missing at mount
    (the page redirects, sends no request and stays as initialised), but
    counts as present at export: the file is then named
    liver-health-report-.pdf, not with the fallback. *)
Theorem empty_identifier_redirects_but_names_file `{NumberFormat}
    (ss : Storage) (o : FetchOutcome) (r : HealthReportData) :
  getItem ss "patientId" = Some "" ->
  HealthReport ss o = (initialState, [Navigate "/login"])
  /\ exists d, generatePDF (Some r) ss = [Save "liver-health-report-.pdf" d].
Proof.
  intros E. split.
  - apply HealthReport_without_session. intros id [Hid Hne]. congruence.
  - rewrite generatePDF_loaded, E. eexists. reflexivity.
Qed.

Lemma empty_identifier_redirects_but_names_file_witness :
  getItem [("patientId", "")] "patientId" = Some ""
  /\ forall F : NumberFormat,
      HealthReport [("patientId", "")] (Resolved [])
        = (initialState, [Navigate "/login"])
      /\ exists d, generatePDF (Some (toReport None)) [("patientId", "")]
                     = [Save "liver-health-report-.pdf" d].
Proof.
  split; [reflexivity | intro F].
  exact (empty_identifier_redirects_but_names_file
           [("patientId", "")] (Resolved []) (toReport None) eq_refl).
Defined.

(** X3: the effects of a run have one of three shapes: the redirect alone;
    one request and nothing else when it resolves; one request followed by
    one console error when it fails.  So a run sends at most one request,
    never both redirects and requests, and logs only a failure. *)
Theorem run_effects_shape (ss : Storage) (o : FetchOutcome) :
  snd (HealthReport ss o) = [Navigate "/login"]
  \/ (exists id data,
        hasSession ss id /\ o = Resolved data
        /\ snd (HealthReport ss o) = [Fetch (fetchUrl id)])
  \/ (exists id err,
        hasSession ss id /\ o = Rejected err
        /\ snd (HealthReport ss o) = [Fetch (fetchUrl id); ConsoleError err]).
Proof.
  destruct (useEffect_cases ss) as [[id Hs] | [Hno _]].
  - right. rewrite (HealthReport_with_session ss id o Hs).
    destruct o as [err | data]; [right | left]; eauto 6.
  - left. now rewrite (HealthReport_without_session ss o Hno).
Qed.

(** X4: the spinner is the final screen exactly when no usable identifier
    was stored at mount; a request that settles, either way, ends the
    loading state. *)
Theorem spinner_iff_no_session `{NumberFormat} (ss : Storage) (o : FetchOutcome) :
  (render (fst (HealthReport ss o)) = Spinner <-> forall id, ~ hasSession ss id)
  /\ (loading (fst (HealthReport ss o)) = false <-> exists id, hasSession ss id).
Proof.
  destruct (HealthReport_state_cases ss o)
    as [[Hno E] | [[id [err [Hs [_ E]]]] | [id [data [Hs [_ E]]]]]];
    rewrite E; simpl; split; split; intros X;
    try discriminate; try reflexivity; eauto;
    try (destruct X as [id' Hs']; now destruct (Hno id'));
    now destruct (X id).
Qed.

(** X5: of the array that the request returns only the first record is
    used: further records change neither the final state nor the effects. *)
Theorem only_first_record_is_used
    (ss : Storage) (p : Patient.t) (rest : list Patient.t) :
  HealthReport ss (Resolved (p :: rest)) = HealthReport ss (Resolved [p])
  /\ ((exists id, hasSession ss id) ->
      patientData (fst (HealthReport ss (Resolved (p :: rest)))) = Some p).
Proof.
  split.
  - unfold HealthReport. now destruct (existsb isFetch (useEffect ss)).
  - intros [id Hs]. now rewrite (HealthReport_with_session ss id _ Hs).
Qed.

Lemma only_first_record_is_used_witness :
  (exists id, hasSession [("patientId", "P001")] id)
  /\ patientData
       (fst (HealthReport [("patientId", "P001")]
               (Resolved [Patient.mk (Some "Asha") None None None;
                          Patient.mk (Some "Ravi") None None None])))
     = Some (Patient.mk (Some "Asha") None None None).
Proof.
  assert (Hs : exists id, hasSession [("patientId", "P001")] id)
    by (exists "P001"; split; [reflexivity | discriminate]).
  split; [exact Hs|].
  exact (proj2 (only_first_record_is_used [("patientId", "P001")]
                  (Patient.mk (Some "Asha") None None None)
                  [Patient.mk (Some "Ravi") None None None]) Hs).
Defined.

(** X6: in the final state of every run, a view-model that exists was built
    from the stored patient record and loading has ended, and without a
    view-model no patient record is stored. *)
Theorem report_mirrors_patientData (ss : Storage) (o : FetchOutcome) :
  let st := fst (HealthReport ss o) in
  (forall r, report st = Some r ->
             r = toReport (patientData st) /\ loading st = false)
  /\ (report st = None -> patientData st = None).
Proof.
  intros st. subst st.
  destruct (useEffect_cases ss) as [[id Hs] | [Hno _]].
  - rewrite (HealthReport_with_session ss id o Hs).
    destruct o as [err | data]; simpl; split; intros; try discriminate; auto.
    split; congruence.
  - rewrite (HealthReport_without_session ss o Hno). simpl.
    split; intros; try discriminate; auto.
Qed.

Lemma report_mirrors_patientData_witness :
  report (fst (HealthReport [("patientId", "P001")]
                 (Resolved [Patient.mk None (Some 52%float) None None])))
    = Some (toReport (Some (Patient.mk None (Some 52%float) None None)))
  /\ loading (fst (HealthReport [("patientId", "P001")]
                     (Resolved [Patient.mk None (Some 52%float) None None])))
     = false.
Proof.
  split; [reflexivity|].
  exact (proj2 (proj1 (report_mirrors_patientData [("patientId", "P001")]
                         (Resolved [Patient.mk None (Some 52%float) None None]))
                  _ eq_refl)).
Defined.

(** ** Lines of the exported document *)

Section ExportedLines.

Context `{NumberFormat}.
Local Open Scope Z_scope.

Lemma generatePDF_saves (r : HealthReportData) (ss : Storage) :
  generatePDF (Some r) ss =
    [Save ("liver-health-report-" ++ (getItem ss "patientId" ?? "report")
           ++ ".pdf")
       {| fontSize := 12; texts := reportLayout r |}].
Proof.
  rewrite generatePDF_loaded, writeReport_layout. reflexivity.
Qed.

Lemma bulletLines_txt (y0 : Z) (items : list string) :
  forall k, map txt (bulletLines y0 k items) = map (append bullet) items.
Proof.
  induction items as [|x rest IH]; intros k; cbn [bulletLines map];
    [reflexivity | now rewrite IH].
Qed.

Lemma bulletLines_no_heading (y0 : Z) (items : list string) :
  forall k, filter (fun l => tsize l =? 14) (bulletLines y0 k items) = [].
Proof.
  induction items as [|x rest IH]; intros k; cbn [bulletLines filter];
    [reflexivity | apply IH].
Qed.

Lemma bulletLines_all_bullets (y0 : Z) (items : list string) :
  forall k,
    filter (fun l => tx l =? 25) (bulletLines y0 k items) = bulletLines y0 k items.
Proof.
  induction items as [|x rest IH]; intros k; cbn [bulletLines filter];
    [reflexivity | cbn; now rewrite IH].
Qed.

Lemma sectionLayout_heading_only (title : string) (items : list string) (y0 : Z) :
  map txt (filter (fun l => tsize l =? 14) (sectionLayout title items y0))
    = [title].
Proof.
  unfold sectionLayout. cbn [filter sectionLine tsize Z.eqb Pos.eqb].
  now rewrite bulletLines_no_heading.
Qed.

Lemma sectionLayout_bullets_only (title : string) (items : list string) (y0 : Z) :
  map txt (filter (fun l => tx l =? 25) (sectionLayout title items y0))
    = map (append bullet) items.
Proof.
  unfold sectionLayout. cbn [filter sectionLine tx Z.eqb Pos.eqb].
  now rewrite bulletLines_all_bullets, bulletLines_txt.
Qed.

(** The heights of the item lines increase and stay inside the section. *)
Lemma bulletLines_heights (y0 : Z) (items : list string) :
  forall k,
    StronglySorted Z.lt (map ty (bulletLines y0 k items))
    /\ Forall (fun y => y0 + 10 * Z.of_nat k <= y
                        < y0 + 10 * Z.of_nat (k + List.length items))
         (map ty (bulletLines y0 k items)).
Proof.
  induction items as [|x rest IH]; intros k; cbn [bulletLines map List.length].
  - split; constructor.
  - destruct (IH (S k)) as [Hsorted Hbound].
    unfold sectionLine. cbn [ty]. unfold lineHeight. split.
    + constructor; [exact Hsorted|].
      eapply Forall_impl; [|exact Hbound]. intros y Hy. cbn beta in Hy. lia.
    + constructor; [lia|].
      eapply Forall_impl; [|exact Hbound]. intros y Hy. cbn beta in *. lia.
Qed.

Lemma sectionLayout_heights (title : string) (items : list string) (y0 : Z) :
  StronglySorted Z.lt (map ty (sectionLayout title items y0))
  /\ Forall (fun y => y0 <= y < sectionEnd items y0)
       (map ty (sectionLayout title items y0)).
Proof.
  unfold sectionLayout, sectionEnd, sectionGap. cbn [map].
  destruct (bulletLines_heights y0 items 1) as [Hsorted Hbound].
  unfold sectionLine. cbn [ty]. unfold lineHeight. split.
  - constructor; [exact Hsorted|].
    eapply Forall_impl; [|exact Hbound]. intros y Hy. cbn beta in Hy. lia.
  - constructor; [lia|].
    eapply Forall_impl; [|exact Hbound]. intros y Hy. cbn beta in *. lia.
Qed.

Lemma sorted_app_bounded (m : Z) (l1 l2 : list Z) :
  StronglySorted Z.lt l1 -> StronglySorted Z.lt l2 ->
  Forall (fun y => y < m) l1 -> Forall (fun y => m <= y) l2 ->
  StronglySorted Z.lt (l1 ++ l2).
Proof.
  intros S1 S2 B1 B2. induction S1 as [|a l S1 IH Ha]; cbn [app].
  - exact S2.
  - inversion B1 as [|? ? Ham Bl]; subst. constructor; [now apply IH|].
    apply Forall_app. split; [exact Ha|].
    eapply Forall_impl; [|exact B2]. cbn. lia.
Qed.

Lemma sectionEnd_below (items : list string) (y0 : Z) : y0 < sectionEnd items y0.
Proof. unfold sectionEnd, lineHeight, sectionGap. lia. Qed.

Lemma last_cons_default {A : Type} (l : list A) :
  forall a d, last (a :: l) d = last l a.
Proof.
  induction l as [|b l IH]; intros a d; [reflexivity|].
  change (last (a :: b :: l) d) with (last (b :: l) d).
  now rewrite !IH.
Qed.

Lemma last_app_nonempty {A : Type} (l1 l2 : list A) (d : A) :
  l2 <> [] -> last (l1 ++ l2) d = last l2 d.
Proof.
  intros Hne. induction l1 as [|a l1 IH]; [reflexivity|].
  cbn [app]. destruct (l1 ++ l2)%list as [|b l] eqn:E.
  - apply app_eq_nil in E. now destruct E.
  - exact IH.
Qed.

Lemma bulletLines_last_height (y0 : Z) (items : list string) :
  forall k,
    last (map ty (bulletLines y0 k items)) (y0 + 10 * Z.of_nat k - 10)
      = y0 + 10 * Z.of_nat (k + List.length items) - 10.
Proof.
  induction items as [|x rest IH]; intros k; cbn [bulletLines map List.length].
  - cbn [last]. rewrite Nat.add_0_r. reflexivity.
  - rewrite last_cons_default. unfold sectionLine. cbn [ty]. unfold lineHeight.
    replace (y0 + 10 * Z.of_nat k) with (y0 + 10 * Z.of_nat (S k) - 10) by lia.
    rewrite (IH (S k)). rewrite Nat.add_succ_r. reflexivity.
Qed.

Lemma sectionLayout_last_height (title : string) (items : list string) (y0 d : Z) :
  last (map ty (sectionLayout title items y0)) d
    = y0 + 10 * Z.of_nat (List.length items).
Proof.
  unfold sectionLayout. cbn [map]. rewrite last_cons_default.
  unfold sectionLine. cbn [ty]. unfold lineHeight.
  replace (y0 + 10 * Z.of_nat 0) with (y0 + 10 * Z.of_nat 1 - 10) by lia.
  rewrite (bulletLines_last_height y0 items 1). lia.
Qed.

Lemma reportLayout_heights (r : HealthReportData) :
  map ty (reportLayout r) =
    ([20; 40; 50; 60; 70]
     ++ map ty (sectionLayout "Key Findings" (keyFindings r) 90)
     ++ map ty (sectionLayout "Recommendations" (recommendations r)
                  (sectionEnd (keyFindings r) 90))
     ++ map ty (sectionLayout "Next Steps" (nextSteps r)
                  (sectionEnd (recommendations r)
                     (sectionEnd (keyFindings r) 90))))%list.
Proof.
  unfold reportLayout, titleLine, fieldBlock. cbn [map app ty].
  now rewrite !map_app.
Qed.

Lemma reportLayout_sorted (r : HealthReportData) :
  StronglySorted Z.lt (map ty (reportLayout r)).
Proof.
  rewrite reportLayout_heights.
  set (e1 := sectionEnd (keyFindings r) 90).
  set (e2 := sectionEnd (recommendations r) e1).
  destruct (sectionLayout_heights "Key Findings" (keyFindings r) 90) as [S1 B1].
  destruct (sectionLayout_heights "Recommendations" (recommendations r) e1)
    as [S2 B2].
  destruct (sectionLayout_heights "Next Steps" (nextSteps r) e2) as [S3 B3].
  fold e1 in B1. fold e2 in B2.
  pose proof (sectionEnd_below (keyFindings r) 90) as L1. fold e1 in L1.
  pose proof (sectionEnd_below (recommendations r) e1) as L2. fold e2 in L2.
  apply (sorted_app_bounded 90).
  - repeat constructor; lia.
  - apply (sorted_app_bounded e1); [exact S1 | | |].
    + apply (sorted_app_bounded e2); [exact S2 | exact S3 | |];
        (eapply Forall_impl; [|eassumption]); cbn beta; lia.
    + eapply Forall_impl; [|exact B1]. cbn beta. lia.
    + apply Forall_app. split;
        (eapply Forall_impl; [|eassumption]); cbn beta; lia.
  - repeat constructor; lia.
  - repeat (apply Forall_app; split);
      (eapply Forall_impl; [|eassumption]); cbn beta; lia.
Qed.

Lemma reportLayout_headings (r : HealthReportData) :
  map txt (filter (fun l => tsize l =? 14) (reportLayout r)) =
    ["Key Findings"; "Recommendations"; "Next Steps"].
Proof.
  unfold reportLayout, titleLine, fieldBlock.
  cbn [app filter tsize Z.eqb Pos.eqb].
  rewrite !filter_app, !map_app, !sectionLayout_heading_only. reflexivity.
Qed.

Lemma reportLayout_bullets (r : HealthReportData) :
  map txt (filter (fun l => tx l =? 25) (reportLayout r)) =
    map (append bullet) (keyFindings r ++ recommendations r ++ nextSteps r)%list.
Proof.
  unfold reportLayout, titleLine, fieldBlock.
  cbn [app filter tx Z.eqb Pos.eqb].
  rewrite !filter_app, !map_app, !sectionLayout_bullets_only. reflexivity.
Qed.

End ExportedLines.

(** X7: the exported document has exactly one line for the title, four for
    the fields, one for each of the three headings and one for each list
    item: eight lines plus the number of items. *)
Theorem exported_line_count `{NumberFormat} (r : HealthReportData) (ss : Storage) :
  exists filename d,
    generatePDF (Some r) ss = [Save filename d]
    /\ List.length (texts d) =
         (8 + List.length (keyFindings r) + List.length (recommendations r)
          + List.length (nextSteps r))%nat.
Proof.
  rewrite generatePDF_saves. eexists _, _. split; [reflexivity|].
  cbn [texts]. unfold reportLayout, fieldBlock.
  cbn [List.length app]. rewrite !length_app.
  unfold sectionLayout. cbn [List.length]. rewrite !bulletLines_length. lia.
Qed.

(** X8: whatever the lengths of the lists, the lines of the exported
    document are written strictly top to bottom: every line is lower on the
    page than the line emitted before it, so no two lines share a height. *)
Theorem exported_heights_increase `{NumberFormat}
    (r : HealthReportData) (ss : Storage) :
  exists filename d,
    generatePDF (Some r) ss = [Save filename d]
    /\ StronglySorted Z.lt (map ty (texts d)).
Proof.
  rewrite generatePDF_saves. eexists _, _. split; [reflexivity|].
  exact (reportLayout_sorted r).
Qed.

(** X9: the last line of the exported document is at height 130 plus 10
    for every list item; the export has no page break, so the height grows
    with the lists without any bound. *)
Theorem exported_last_height `{NumberFormat}
    (r : HealthReportData) (ss : Storage) :
  exists filename d,
    generatePDF (Some r) ss = [Save filename d]
    /\ last (map ty (texts d)) 0%Z =
         (130 + 10 * Z.of_nat (List.length (keyFindings r)
                               + List.length (recommendations r)
                               + List.length (nextSteps r)))%Z.
Proof.
  rewrite generatePDF_saves. eexists _, _. split; [reflexivity|].
  cbn [texts]. rewrite reportLayout_heights.
  rewrite !app_assoc, last_app_nonempty.
  - rewrite sectionLayout_last_height.
    unfold sectionEnd, lineHeight, sectionGap. lia.
  - unfold sectionLayout. cbn [map]. discriminate.
Qed.

(** X10: for every view-model the lines set in the heading size are exactly
    the three headings, in the order Key Findings, Recommendations, Next
    Steps, whatever the items say. *)
Theorem exported_headings `{NumberFormat} (r : HealthReportData) (ss : Storage) :
  exists filename d,
    generatePDF (Some r) ss = [Save filename d]
    /\ map txt (filter (fun l => Z.eqb (tsize l) 14) (texts d)) =
         ["Key Findings"; "Recommendations"; "Next Steps"].
Proof.
  rewrite generatePDF_saves. eexists _, _. split; [reflexivity|].
  exact (reportLayout_headings r).
Qed.

(** X11: the bulleted lines of the exported document are the items of the
    three lists, findings first, then recommendations, then next steps,
    each prefixed by the bullet: no item is dropped, repeated or moved. *)
Theorem exported_bullets `{NumberFormat} (r : HealthReportData) (ss : Storage) :
  exists filename d,
    generatePDF (Some r) ss = [Save filename d]
    /\ map txt (filter (fun l => Z.eqb (tx l) 25) (texts d)) =
         map (append bullet)
           (keyFindings r ++ recommendations r ++ nextSteps r)%list.
Proof.
  rewrite generatePDF_saves. eexists _, _. split; [reflexivity|].
  exact (reportLayout_bullets r).
Qed.

(** ** The screen and the exported document together *)

(** X12: the report screen, which carries the download button, is shown
    exactly when an export saves a file, and it then saves exactly one;
    while the spinner or the "Report Not Found" screen is shown an export
    would do nothing. *)
Theorem report_screen_iff_export_saves `{NumberFormat}
    (ss : Storage) (o : FetchOutcome) (ss' : Storage) :
  let st := fst (HealthReport ss o) in
  ((exists n d c t secs, render st = ReportScreen n d c t secs)
   <-> (exists filename doc, generatePDF (report st) ss' = [Save filename doc]))
  /\ ((render st = Spinner \/ exists h m, render st = NotFoundScreen h m)
      <-> generatePDF (report st) ss' = []).
Proof.
  intros st. subst st.
  destruct (HealthReport_state_cases ss o)
    as [[Hno E] | [[id [err [Hs [_ E]]]] | [id [data [Hs [_ E]]]]]];
    rewrite E; cbn [fst report]; try rewrite generatePDF_saves;
    (split; split).
  all: try (intros [n [d [c [t [secs X]]]]]; discriminate X).
  all: try (intros [filename [doc X]]; discriminate X).
  all: try (intros [X | [h [m X]]]; discriminate X).
  all: try discriminate.
  all: try (intros _; reflexivity).
  all: try (intros _; left; reflexivity).
  all: try (intros _; right; eexists _, _; reflexivity).
  all: try (intros _; eexists _, _; reflexivity).
  all: try (intros _; eexists _, _, _, _, _; reflexivity).
Qed.

(** X13: whenever the report screen is shown, an export from that state
    prints the same risk score text as the screen, has the titles of the
    sections on screen as its headings, and has the items listed on screen
    as its bulleted lines, in the same order. *)
Theorem screen_and_document_agree `{NumberFormat}
    (ss : Storage) (o : FetchOutcome) (ss' : Storage)
    (n d c t : string) (secs : list SectionView) :
  render (fst (HealthReport ss o)) = ReportScreen n d c t secs ->
  exists filename doc,
    generatePDF (report (fst (HealthReport ss o))) ss' = [Save filename doc]
    /\ nth_error (texts doc) 4 =
         Some {| txt := "Risk Score: " ++ t; tx := 20; ty := 70; tsize := 12 |}
    /\ map txt (filter (fun l => Z.eqb (tsize l) 14) (texts doc))
         = map secTitle secs
    /\ map txt (filter (fun l => Z.eqb (tx l) 25) (texts doc))
         = map (append bullet) (List.concat (map secItems secs)).
Proof.
  destruct (HealthReport_state_cases ss o)
    as [[Hno E] | [[id [err [Hs [_ E]]]] | [id [data [Hs [_ E]]]]]];
    rewrite E; cbn [fst report]; intros R; try discriminate R.
  cbn in R. injection R as <- <- <- <- <-.
  rewrite generatePDF_saves. eexists _, _. split; [reflexivity|].
  cbn [texts]. rewrite reportLayout_headings, reportLayout_bullets.
  cbn [map List.concat secItems secTitle ReportSection toReport keyFindings
       recommendations nextSteps riskScore].
  rewrite app_nil_r. split; [reflexivity | split; reflexivity].
Qed.

Lemma screen_and_document_agree_witness :
  hasSession [("patientId", "P001")] "P001"
  /\ forall F : NumberFormat,
      exists filename doc,
        generatePDF
          (report (fst (HealthReport [("patientId", "P001")]
                          (Resolved [Patient.mk None None None (Some 52%float)]))))
          [] = [Save filename doc]
        /\ nth_error (texts doc) 4 =
             Some {| txt := "Risk Score: " ++ Number_toFixed 52%float 1 ++ "%";
                     tx := 20; ty := 70; tsize := 12 |}
        /\ map txt (filter (fun l => Z.eqb (tsize l) 14) (texts doc))
             = ["Key Findings"; "Recommendations"; "Next Steps"]
        /\ map txt (filter (fun l => Z.eqb (tx l) 25) (texts doc))
             = map (append bullet)
                 (defaultKeyFindings ++ defaultRecommendations
                  ++ defaultNextSteps ++ [])%list.
Proof.
  split; [split; [reflexivity | discriminate] | intro F].
  exact (screen_and_document_agree [("patientId", "P001")]
           (Resolved [Patient.mk None None None (Some 52%float)]) []
           "N/A" "N/A" mediumTier (Number_toFixed 52%float 1 ++ "%")
           [ ReportSection "Key Findings" defaultKeyFindings;
             ReportSection "Recommendations" defaultRecommendations;
             ReportSection "Next Steps" defaultNextSteps ]
           eq_refl).
Defined.

(** X14: for a fetched record the screen and the exported document show
    the name and the date of the record when it has them, but fall back
    differently when it has not: the screen shows N/A for either, the
    document prints the name Unknown and an empty date. *)
Theorem screen_and_document_fallbacks `{NumberFormat}
    (ss : Storage) (id : string) (p : Patient.t) (rest : list Patient.t)
    (ss' : Storage) :
  hasSession ss id ->
  let st := fst (HealthReport ss (Resolved (p :: rest))) in
  exists c t secs filename doc,
    render st =
      ReportScreen (Patient.Name p ?? "N/A") (Patient.Report_Date p ?? "N/A")
        c t secs
    /\ generatePDF (report st) ss' = [Save filename doc]
    /\ nth_error (texts doc) 1 =
         Some {| txt := "Patient: " ++ (Patient.Name p ?? "Unknown");
                 tx := 20; ty := 40; tsize := 12 |}
    /\ nth_error (texts doc) 3 =
         Some {| txt := "Assessment Date: " ++ (Patient.Report_Date p ?? "");
                 tx := 20; ty := 60; tsize := 12 |}.
Proof.
  intros Hs st. subst st. rewrite (HealthReport_with_session ss id _ Hs).
  cbn [fst settle onResolved hd_error setLoading setReport setPatientData
       report patientData loading].
  rewrite generatePDF_saves. eexists _, _, _, _, _.
  split; [reflexivity | split; [reflexivity | split; reflexivity]].
Qed.

Lemma screen_and_document_fallbacks_witness :
  hasSession [("patientId", "P001")] "P001"
  /\ forall F : NumberFormat,
      exists c t secs filename doc,
        render (fst (HealthReport [("patientId", "P001")]
                       (Resolved [Patient.mk None (Some 61%float) None None])))
          = ReportScreen "N/A" "N/A" c t secs
        /\ generatePDF
             (report (fst (HealthReport [("patientId", "P001")]
                             (Resolved [Patient.mk None (Some 61%float) None None]))))
             [] = [Save filename doc]
        /\ nth_error (texts doc) 1 =
             Some {| txt := "Patient: Unknown"; tx := 20; ty := 40; tsize := 12 |}
        /\ nth_error (texts doc) 3 =
             Some {| txt := "Assessment Date: "; tx := 20; ty := 60; tsize := 12 |}.
Proof.
  assert (Hs : hasSession [("patientId", "P001")] "P001")
    by (split; [reflexivity | discriminate]).
  split; [exact Hs | intro F].
  exact (screen_and_document_fallbacks [("patientId", "P001")] "P001"
           (Patient.mk None (Some 61%float) None None) [] [] Hs).
Defined.
